(** * ts-outcome: Option, Result and IO, embedded and verified

    A shallow embedding of [src/types/option.ts], [src/types/result.ts],
    [src/types/io.ts] and [src/helpers.ts].

    - Run-time values are a closed universe [Value]; a container is built
      from the two private fields of its class ([__kind], [data]), so that
      [instanceof] tests on a payload can be written as in the source.
    - Caller-supplied functions may mutate state and may throw: they live in
      the monad [JS A = Store -> Completion A * Store].
    - A promise is represented by the way it settles; a producer
      [() => Promise<T>] is a [JS (Promise T)] (it may also throw before it
      returns a promise). *)

From Stdlib Require Import String Ascii ZArith QArith List Bool Lia.
Import ListNotations.

Local Close Scope Q_scope.
Local Open Scope string_scope.

(* ------------------------------------------------------------------ *)
(** ** Values *)

Module OptionKind.
Inductive t : Set := Some | None.
Definition eqb (a b : t) : bool :=
  match a, b with
  | Some, Some | None, None => true
  | _, _ => false
  end.
End OptionKind.

Module ResultKind.
Inductive t : Set := Ok | Err.
Definition eqb (a b : t) : bool :=
  match a, b with
  | Ok, Ok | Err, Err => true
  | _, _ => false
  end.
End ResultKind.

(** The values the containers can hold.  [VError message] is an object made
    by [new Error(message)]; [VOption] and [VResult] are instances of the two
    classes. *)
Inductive Value : Type :=
| VUndefined
| VNull
| VBool (b : bool)
| VNum (n : Z)
| VStr (s : string)
| VError (message : string)
| VOption (o : Option)
| VResult (r : Result)
with Option : Type :=
| mkOption (__kind : OptionKind.t) (data : Value)
with Result : Type :=
| mkResult (__kind : ResultKind.t) (data : Value).

(** [value === null] and [value === undefined] *)
Definition is_null (value : Value) : bool :=
  match value with VNull => true | _ => false end.

Definition is_undefined (value : Value) : bool :=
  match value with VUndefined => true | _ => false end.

(** Nesting depth of containers inside a value. *)
Fixpoint Value_depth (v : Value) : nat :=
  match v with
  | VOption o => Option_depth o
  | VResult r => Result_depth r
  | _ => 0
  end
with Option_depth (o : Option) : nat :=
  match o with mkOption _ d => S (Value_depth d) end
with Result_depth (r : Result) : nat :=
  match r with mkResult _ d => S (Value_depth d) end.

(* ------------------------------------------------------------------ *)
(** ** Computations: state and exceptions *)

Inductive Completion (A : Type) : Type :=
| Normal (a : A)
| Throw (e : Value).
Arguments Normal {A} a.
Arguments Throw {A} e.

Definition JS (Store A : Type) : Type := Store -> Completion A * Store.

Section Monad.
Context {Store : Type}.

Definition ret {A} (a : A) : JS Store A := fun s => (Normal a, s).

Definition throw {A} (e : Value) : JS Store A := fun s => (Throw e, s).

(** A call that touches no state: it returns or throws. *)
Definition lift {A} (c : Completion A) : JS Store A := fun s => (c, s).

Definition bind {A B} (m : JS Store A) (k : A -> JS Store B) : JS Store B :=
  fun s =>
    match m s with
    | (Normal a, s') => k a s'
    | (Throw e, s') => (Throw e, s')
    end.

(** [try { body } catch (e) { handler(e) }] *)
Definition try_catch {A} (body : JS Store A) (handler : Value -> JS Store A)
  : JS Store A :=
  fun s =>
    match body s with
    | (Normal a, s') => (Normal a, s')
    | (Throw e, s') => handler e s'
    end.

End Monad.

Declare Scope js_scope.
Delimit Scope js_scope with js.
Notation "x <- m ;; k" := (bind m (fun x => k))
  (at level 61, m at next level, right associativity) : js_scope.
Notation "m ;;; k" := (bind m (fun _ => k))
  (at level 61, right associativity) : js_scope.
Local Open Scope js_scope.

(* ------------------------------------------------------------------ *)
(** ** helpers.ts *)

(** [panic(msg = "explicit panic")]: throws [new Error(`panicked at '${msg}'`)].
    [None] stands for an omitted argument. *)
Definition panic_message (msg : option string) : string :=
  "panicked at '" ++
  (match msg with Some m => m | None => "explicit panic" end) ++ "'".

Definition panic {Store A} (msg : option string) : JS Store A :=
  throw (VError (panic_message msg)).

(** [msg ? a : b] on an optional string: [undefined] and the empty string are
    falsy. *)
Definition truthy (msg : option string) : bool :=
  match msg with
  | Some (String _ _) => true
  | _ => false
  end.

(** [`${msg}`] *)
Definition template (msg : option string) : string :=
  match msg with Some m => m | None => "undefined" end.

Definition unimplemented {Store A} (msg : option string) : JS Store A :=
  panic (Some (if truthy msg
               then "not implemented: " ++ template msg
               else "not implemented")).

Definition todo {Store A} (msg : option string) : JS Store A :=
  panic (Some (if truthy msg
               then "not yet implemented: " ++ template msg
               else "not yet implemented")).

(* ------------------------------------------------------------------ *)
(** ** result.ts *)

Module Result.

Definition __kind (this : Result) : ResultKind.t :=
  match this with mkResult k _ => k end.

Definition data (this : Result) : Value :=
  match this with mkResult _ d => d end.

Definition ok (value : Value) : Result := mkResult ResultKind.Ok value.

Definition err (error : Value) : Result := mkResult ResultKind.Err error.

Definition fromNullable (value error : Value) : Result :=
  if is_null value || is_undefined value then err error else ok value.

Definition isOk (this : Result) : bool :=
  ResultKind.eqb (__kind this) ResultKind.Ok.

Definition isErr (this : Result) : bool :=
  ResultKind.eqb (__kind this) ResultKind.Err.

Definition unwrapOr (this : Result) (defaultValue : Value) : Value :=
  if isOk this then data this else defaultValue.

Definition and (this other : Result) : Result :=
  if isOk this then other else err (data this).

Definition or (this other : Result) : Result :=
  if isErr this then other else ok (data this).

(** [flatten]: the test is [this.data instanceof Result] alone; the kind of
    [this] is not consulted. *)
Fixpoint flatten (this : Result) : Result :=
  match data this with
  | VResult inner => flatten inner
  | _ => this
  end.

(** One activation of [flatten]: a recursive call on the payload ([inl]) or
    the container that is returned ([inr]). *)
Definition flatten_step (this : Result) : Result + Result :=
  match data this with
  | VResult inner => inl inner
  | _ => inr this
  end.

(** [flatten] run for at most [fuel] activations. *)
Fixpoint flatten_fuel (fuel : nat) (this : Result) : option Result :=
  match fuel with
  | O => None
  | S fuel' =>
      match flatten_step this with
      | inl inner => flatten_fuel fuel' inner
      | inr r => Some r
      end
  end.

Section Methods.
Context {Store : Type}.

Definition tryFrom (fn : unit -> JS Store Value) (error : Value)
  : JS Store Result :=
  try_catch (v <- fn tt ;; ret (ok v)) (fun _ => ret (err error)).

Definition tryFromNullable (fn : unit -> JS Store Value) (error : Value)
  : JS Store Result :=
  try_catch (v <- fn tt ;; ret (fromNullable v error))
            (fun _ => ret (err error)).

Definition isOkAnd (this : Result) (predicate : Value -> JS Store bool)
  : JS Store bool :=
  if isOk this then predicate (data this) else ret false.

Definition isErrAnd (this : Result) (predicate : Value -> JS Store bool)
  : JS Store bool :=
  if isErr this then predicate (data this) else ret false.

Definition map (this : Result) (mapper : Value -> JS Store Value)
  : JS Store Result :=
  if isOk this
  then v <- mapper (data this) ;; ret (ok v)
  else ret (err (data this)).

Definition mapOr {U} (this : Result) (defaultValue : U)
  (mapper : Value -> JS Store U) : JS Store U :=
  if isOk this then mapper (data this) else ret defaultValue.

Definition mapOrElse {U} (this : Result) (defaultValue : unit -> JS Store U)
  (mapper : Value -> JS Store U) : JS Store U :=
  if isOk this then mapper (data this) else defaultValue tt.

Definition mapErr (this : Result) (mapper : Value -> JS Store Value)
  : JS Store Result :=
  if isErr this
  then e <- mapper (data this) ;; ret (err e)
  else ret (ok (data this)).

Definition match_ {U} (this : Result)
  (matcher_ok matcher_err : Value -> JS Store U) : JS Store U :=
  if isOk this then matcher_ok (data this) else matcher_err (data this).

Definition expect (this : Result) (message : string) : JS Store Value :=
  (if isErr this then panic (Some message) else ret tt) ;;;
  ret (data this).

Definition unwrap (this : Result) : JS Store Value :=
  expect this "called `Result.unwrap()` on an `Err` value".

Definition expectErr (this : Result) (message : string) : JS Store Value :=
  (if isOk this then panic (Some message) else ret tt) ;;;
  ret (data this).

Definition unwrapErr (this : Result) : JS Store Value :=
  expectErr this "called `Result.unwrapErr()` on an `Ok` value".

Definition unwrapOrElse (this : Result) (defaultValue : unit -> JS Store Value)
  : JS Store Value :=
  if isOk this then ret (data this) else defaultValue tt.

Definition andThen (this : Result) (mapper : Value -> JS Store Result)
  : JS Store Result :=
  if isOk this then mapper (data this) else ret (err (data this)).

Definition flatMap (this : Result) (mapper : Value -> JS Store Result)
  : JS Store Result :=
  if isOk this then mapper (data this) else ret (err (data this)).

Definition orElse (this : Result) (mapper : Value -> JS Store Result)
  : JS Store Result :=
  if isErr this then mapper (data this) else ret (ok (data this)).

End Methods.

End Result.

(* ------------------------------------------------------------------ *)
(** ** option.ts *)

Module Option.

Definition __kind (this : Option) : OptionKind.t :=
  match this with mkOption k _ => k end.

Definition data (this : Option) : Value :=
  match this with mkOption _ d => d end.

(** [new Option(OptionKind.None)]: the optional [data] is left [undefined]. *)
Definition none : Option := mkOption OptionKind.None VUndefined.

Definition some (value : Value) : Option := mkOption OptionKind.Some value.

(** The constructor is private: the containers that exist are those made by
    [some] and the single [none]. *)
Definition constructed (this : Option) : Prop :=
  __kind this = OptionKind.None -> data this = VUndefined.

Definition fromNullable (value : Value) : Option :=
  if is_null value || is_undefined value then none else some value.

Definition isSome (this : Option) : bool :=
  OptionKind.eqb (__kind this) OptionKind.Some.

Definition isNone (this : Option) : bool :=
  OptionKind.eqb (__kind this) OptionKind.None.

Definition okOr (this : Option) (error : Value) : Result :=
  if isSome this then Result.ok (data this) else Result.err error.

Definition unwrapOr (this : Option) (defaultValue : Value) : Value :=
  if isSome this then data this else defaultValue.

Definition and (this other : Option) : Option :=
  if isSome this then other else none.

Definition or (this other : Option) : Option :=
  if isSome this then this else other.

(** [flatten]: recursion only when [this.isSome() && this.data instanceof
    Option]. *)
Fixpoint flatten (this : Option) : Option :=
  if isSome this
  then match data this with
       | VOption inner => flatten inner
       | _ => this
       end
  else this.

(** One activation of [flatten]: a recursive call on the payload ([inl]) or
    the container that is returned ([inr]). *)
Definition flatten_step (this : Option) : Option + Option :=
  if isSome this
  then match data this with
       | VOption inner => inl inner
       | _ => inr this
       end
  else inr this.

Fixpoint flatten_fuel (fuel : nat) (this : Option) : option Option :=
  match fuel with
  | O => None
  | S fuel' =>
      match flatten_step this with
      | inl inner => flatten_fuel fuel' inner
      | inr r => Some r
      end
  end.

Section Methods.
Context {Store : Type}.

Definition tryFrom (fn : unit -> JS Store Value) : JS Store Option :=
  try_catch (v <- fn tt ;; ret (some v)) (fun _ => ret none).

Definition tryFromNullable (fn : unit -> JS Store Value) : JS Store Option :=
  try_catch (v <- fn tt ;; ret (fromNullable v)) (fun _ => ret none).

Definition isSomeAnd (this : Option) (predicate : Value -> JS Store bool)
  : JS Store bool :=
  if isSome this then predicate (data this) else ret false.

Definition okOrElse (this : Option) (error : unit -> JS Store Value)
  : JS Store Result :=
  if isSome this
  then ret (Result.ok (data this))
  else e <- error tt ;; ret (Result.err e).

Definition match_ {U} (this : Option) (matcher_some : Value -> JS Store U)
  (matcher_none : unit -> JS Store U) : JS Store U :=
  if isSome this then matcher_some (data this) else matcher_none tt.

Definition expect (this : Option) (message : string) : JS Store Value :=
  (if isNone this then panic (Some message) else ret tt) ;;;
  ret (data this).

Definition unwrap (this : Option) : JS Store Value :=
  expect this "called `Option.unwrap()` on a `None` value".

Definition unwrapOrElse (this : Option) (defaultValue : unit -> JS Store Value)
  : JS Store Value :=
  if isSome this then ret (data this) else defaultValue tt.

Definition map (this : Option) (mapper : Value -> JS Store Value)
  : JS Store Option :=
  if isSome this
  then v <- mapper (data this) ;; ret (some v)
  else ret none.

Definition mapOr {U} (this : Option) (defaultValue : U)
  (mapper : Value -> JS Store U) : JS Store U :=
  if isSome this then mapper (data this) else ret defaultValue.

Definition mapOrElse {U} (this : Option) (defaultMapper : unit -> JS Store U)
  (mapper : Value -> JS Store U) : JS Store U :=
  if isSome this then mapper (data this) else defaultMapper tt.

Definition andThen (this : Option) (mapper : Value -> JS Store Option)
  : JS Store Option :=
  if isSome this then mapper (data this) else ret none.

Definition flatMap (this : Option) (mapper : Value -> JS Store Option)
  : JS Store Option :=
  if isSome this then mapper (data this) else ret none.

Definition filter (this : Option) (predicate : Value -> JS Store bool)
  : JS Store Option :=
  b <- isSomeAnd this predicate ;; ret (if b then this else none).

Definition orElse (this : Option) (mapper : unit -> JS Store Option)
  : JS Store Option :=
  if isSome this then ret this else mapper tt.

End Methods.

End Option.

(* ------------------------------------------------------------------ *)
(** ** Promises

    A promise is represented by how it settles.  [Pending] is a promise that
    never settles.  Reaction callbacks run at the store left by whatever ran
    before them; an exception thrown by a callback rejects the derived
    promise, and a promise returned by a callback is adopted. *)

Inductive Promise (T : Type) : Type :=
| Resolved (value : T)
| Rejected (reason : Value)
| Pending.
Arguments Resolved {T} value.
Arguments Rejected {T} reason.
Arguments Pending {T}.

Module Promise.
Section Reactions.
Context {Store : Type}.

Definition resolve {T} (value : T) : Promise T := Resolved value.

Definition reject {T} (reason : Value) : Promise T := Rejected reason.

(** Running a reaction callback that returns a promise. *)
Definition react {U} (callback : JS Store (Promise U)) : JS Store (Promise U) :=
  fun s =>
    match callback s with
    | (Normal q, s') => (Normal q, s')
    | (Throw e, s') => (Normal (Rejected e), s')
    end.

(** [p.then(onFulfilled)] *)
Definition then_ {T U} (p : Promise T)
  (onFulfilled : T -> JS Store (Promise U)) : JS Store (Promise U) :=
  match p with
  | Resolved value => react (onFulfilled value)
  | Rejected reason => ret (Rejected reason)
  | Pending => ret Pending
  end.

(** [p.catch(onRejected)] *)
Definition catch {T} (p : Promise T)
  (onRejected : Value -> JS Store (Promise T)) : JS Store (Promise T) :=
  match p with
  | Resolved value => ret (Resolved value)
  | Rejected reason => react (onRejected reason)
  | Pending => ret Pending
  end.

End Reactions.
End Promise.

(* ------------------------------------------------------------------ *)
(** ** io.ts *)

(** [class IO<T> { private constructor(private readonly effect: () =>
    Promise<T>) }].  Calling the producer may itself throw before any promise
    exists, hence [JS Store (Promise T)]. *)
Record IO (Store T : Type) : Type := mkIO {
  effect : JS Store (Promise T)
}.
Arguments mkIO {Store T} effect.
Arguments effect {Store T} _.

Module IO.
Section Methods.
Context {Store : Type}.

(** [from(value: T | IO<T>)]: the union is a sum, [inr] being the
    [value instanceof IO] case. *)
Definition from {T} (value : T + IO Store T) : IO Store T :=
  match value with
  | inr io => mkIO (effect io)
  | inl v => mkIO (ret (Promise.resolve v))
  end.

Definition unit : IO Store Value := from (inl VUndefined).

Definition fromPromise {T} (promise : JS Store (Promise T)) : IO Store T :=
  mkIO promise.

Definition catch {T} (this : IO Store T)
  (handler : Value -> JS Store (IO Store T)) : IO Store T :=
  mkIO (p <- effect this ;;
        Promise.catch p (fun error => io <- handler error ;; effect io)).

Definition chain {T U} (this : IO Store T)
  (mapper : T -> JS Store (IO Store U)) : IO Store U :=
  mkIO (p <- effect this ;;
        Promise.then_ p (fun result => io <- mapper result ;; effect io)).

Definition run {T} (this : IO Store T) : JS Store (Promise T) :=
  effect this.

End Methods.
End IO.

Definition io {Store T} (effect : JS Store (Promise T)) : IO Store T :=
  IO.fromPromise effect.

(* ------------------------------------------------------------------ *)
(** ** Test doubles and sample inputs *)

(** [jest.fn(() => result)] with the store being the number of calls. *)
Definition spy {A} (result : A) : unit -> JS nat A :=
  fun _ calls => (Normal result, S calls).

(** [() => Option.none.unwrap()] *)
Definition unwrap_none {Store} : unit -> JS Store Value :=
  fun _ => Option.unwrap Option.none.

(** A computation panics at store [s] when it throws the [Error] built by
    [panic]. *)
Definition panics {Store A} (c : JS Store A) (s : Store) : Prop :=
  exists msg s', c s = (Throw (VError (panic_message msg)), s').

(** A stand-in for the built-in [JSON.parse] on texts made of decimal
    digits; anything else raises a [SyntaxError]. *)
Fixpoint parse_digits (acc : Z) (text : string) : option Z :=
  match text with
  | EmptyString => Some acc
  | String c rest =>
      let d := nat_of_ascii c in
      if andb (Nat.leb 48 d) (Nat.leb d 57)
      then parse_digits (10 * acc + Z.of_nat (d - 48)) rest
      else None
  end.

Definition parse_number_literal (text : string) : Completion Value :=
  match text with
  | EmptyString => Throw (VError "SyntaxError")
  | _ =>
      match parse_digits 0 text with
      | Some n => Normal (VNum n)
      | None => Throw (VError "SyntaxError")
      end
  end.

(** [IO.from(4).chain(v => IO.from(v + 2)).chain(v => IO.from(v * 3))
       .chain(v => IO.from(v / 2))], numbers being rationals. *)
Definition chain_example {Store} : IO Store Q :=
  IO.chain
    (IO.chain
       (IO.chain (IO.from (inl 4%Q))
          (fun value => ret (IO.from (inl (value + 2)%Q))))
       (fun value => ret (IO.from (inl (value * 3)%Q))))
    (fun value => ret (IO.from (inl (value / 2)%Q))).

(** Stores that record what happened, in order. *)
Definition log (entry : string) : JS (list string) unit :=
  fun trace => (Normal tt, (trace ++ [entry])%list).

(** A producer that records its run and then settles. *)
Definition traced_stage {T} (name : string) (settles : Promise T)
  : IO (list string) T :=
  IO.fromPromise (log name ;;; ret settles).

Definition traced_chain (first : Promise Q) : IO (list string) Q :=
  IO.chain
    (IO.chain (traced_stage "stage 0" first)
       (fun value =>
          log "mapper 1" ;;;
          ret (traced_stage "stage 1" (Promise.resolve (value + 2)%Q))))
    (fun value =>
       log "mapper 2" ;;;
       ret (traced_stage "stage 2" (Promise.resolve (value * 3)%Q))).

(** [IO.fromPromise(() => Promise.reject(new Error("Oops!")))] *)
Definition errorIO {Store T} : IO Store T :=
  IO.fromPromise (ret (Promise.reject (VError "Oops!"))).

(* ------------------------------------------------------------------ *)
(** ** The invariant of the private constructors

    [new Option(OptionKind.None)] is called once, without [data]; every other
    container gets its payload from a factory.  A value is well formed when
    every [None] inside it holds [undefined]. *)

Fixpoint Value_wf (v : Value) : bool :=
  match v with
  | VOption o => Option_wf o
  | VResult r => Result_wf r
  | _ => true
  end
with Option_wf (o : Option) : bool :=
  match o with
  | mkOption OptionKind.Some d => Value_wf d
  | mkOption OptionKind.None d => is_undefined d
  end
with Result_wf (r : Result) : bool :=
  match r with mkResult _ d => Value_wf d end.

(* ================================================================== *)
(** * Properties *)

(* ------------------------------------------------------------------ *)
(** ** Laws of the computation monad *)

Section MonadLaws.
Context {Store : Type}.

Lemma bind_ret_l {A B} (a : A) (k : A -> JS Store B) (s : Store) :
  (x <- ret a ;; k x) s = k a s.
Proof. reflexivity. Qed.

Lemma bind_ret_r {A} (m : JS Store A) (s : Store) :
  (x <- m ;; ret x) s = m s.
Proof. unfold bind, ret. destruct (m s) as [[a | e] s']; reflexivity. Qed.

Lemma bind_assoc {A B C} (m : JS Store A) (k : A -> JS Store B)
  (h : B -> JS Store C) (s : Store) :
  (y <- (x <- m ;; k x) ;; h y) s = (x <- m ;; y <- k x ;; h y) s.
Proof. unfold bind. destruct (m s) as [[a | e] s']; reflexivity. Qed.

Lemma bind_normal {A B} (m : JS Store A) (k : A -> JS Store B) s a s' :
  m s = (Normal a, s') -> (x <- m ;; k x) s = k a s'.
Proof. intros H. unfold bind. now rewrite H. Qed.

Lemma bind_throw {A B} (m : JS Store A) (k : A -> JS Store B) s e s' :
  m s = (Throw e, s') -> (x <- m ;; k x) s = (Throw e, s').
Proof. intros H. unfold bind. now rewrite H. Qed.

Lemma try_catch_normal {A} (body : JS Store A) handler s a s' :
  body s = (Normal a, s') -> try_catch body handler s = (Normal a, s').
Proof. intros H. unfold try_catch. now rewrite H. Qed.

Lemma try_catch_throw {A} (body : JS Store A) handler s e s' :
  body s = (Throw e, s') -> try_catch body handler s = handler e s'.
Proof. intros H. unfold try_catch. now rewrite H. Qed.

End MonadLaws.

(* ------------------------------------------------------------------ *)
(** ** Option: construction, extraction, conversion *)

Lemma Option_constructed_cases (opt : Option) :
  Option.constructed opt <->
  opt = Option.none \/ exists v, opt = Option.some v.
Proof.
  destruct opt as [[ | ] d]; unfold Option.constructed; simpl; split.
  - intros _. right. now exists d.
  - intros _ H. discriminate H.
  - intros H. left. now rewrite H.
  - intros [H | [v H]] _; now inversion H.
Qed.

Lemma Option_unwrap_some {Store} (v : Value) (s : Store) :
  Option.unwrap (Option.some v) s = (Normal v, s).
Proof. reflexivity. Qed.

Lemma Option_expect_none {Store} (message : string) (s : Store) :
  Option.expect Option.none message s
  = (Throw (VError (panic_message (Some message))), s).
Proof. reflexivity. Qed.

Lemma Result_expect_err {Store} (e : Value) (message : string) (s : Store) :
  Result.expect (Result.err e) message s
  = (Throw (VError (panic_message (Some message))), s).
Proof. reflexivity. Qed.

Lemma Result_expectErr_ok {Store} (v : Value) (message : string) (s : Store) :
  Result.expectErr (Result.ok v) message s
  = (Throw (VError (panic_message (Some message))), s).
Proof. reflexivity. Qed.

Lemma unwrap_none_panics {Store} (s : Store) : panics (unwrap_none tt) s.
Proof.
  exists (Some "called `Option.unwrap()` on a `None` value"), s.
  reflexivity.
Qed.

(** C9: [Option.some] never looks at its argument.  For every value [v],
    [null] and [undefined] included, [some(v).isSome()] is true and
    [some(v).unwrap()] returns [v]; [some(v)] is never [Option.none]; the
    sentinels become [None] only through [fromNullable] and
    [tryFromNullable], while [tryFrom] wraps them in [Some]. *)
Theorem Option_some_never_inspects :
  forall (Store : Type) (v : Value) (s : Store),
    Option.isSome (Option.some v) = true /\
    Option.isNone (Option.some v) = false /\
    Option.unwrap (Option.some v) s = (Normal v, s) /\
    Option.some v <> Option.none /\
    Option.fromNullable VNull = Option.none /\
    Option.fromNullable VUndefined = Option.none /\
    Option.tryFromNullable (fun _ => ret VNull) s = (Normal Option.none, s) /\
    Option.tryFromNullable (fun _ => ret VUndefined) s
      = (Normal Option.none, s) /\
    Option.tryFrom (fun _ => ret v) s = (Normal (Option.some v), s) /\
    (Option.fromNullable v = Option.none <-> v = VNull \/ v = VUndefined).
Proof.
  intros Store v s.
  repeat match goal with |- _ /\ _ => split end; try reflexivity.
  - discriminate.
  - split.
    + destruct v; simpl; intros H; try discriminate H; auto.
    + intros [-> | ->]; reflexivity.
Qed.

(** C6: conversion from Option to Result.  [some(v).okOr(e)] is [Ok(v)] and
    [none.okOr(e)] is [Err(e)]; [okOrElse(errorFn)] gives the same results,
    leaves the store untouched on [Some] whatever [errorFn] would do, and on
    [None] runs [errorFn] once and wraps what it returns.  With a call
    counter as store the count stays put on [Some] and grows by one on
    [None]. *)
Theorem Option_okOr_exact :
  forall (Store : Type) (v e : Value) (errorFn : unit -> JS Store Value)
         (s : Store) (calls : nat),
    Option.okOr (Option.some v) e = Result.ok v /\
    Option.okOr Option.none e = Result.err e /\
    Option.okOrElse (Option.some v) errorFn s = (Normal (Result.ok v), s) /\
    Option.okOrElse Option.none errorFn s
      = (x <- errorFn tt ;; ret (Result.err x)) s /\
    Option.okOrElse (Option.some v) (spy e) calls
      = (Normal (Result.ok v), calls) /\
    Option.okOrElse Option.none (spy e) calls
      = (Normal (Result.err e), S calls).
Proof.
  intros. repeat split.
Qed.

(** C7: functor laws of [Option.map].  Mapping the identity over a
    constructed Option gives the Option back, and mapping [f] then [g] is
    mapping their composition, stores and exceptions included. *)
Theorem Option_map_functor_laws :
  forall (Store : Type) (opt : Option) (f g : Value -> JS Store Value)
         (s : Store),
    Option.constructed opt ->
    Option.map opt (fun x => ret x) s = (Normal opt, s) /\
    (o <- Option.map opt f ;; Option.map o g) s
      = Option.map opt (fun x => y <- f x ;; g y) s.
Proof.
  intros Store opt f g s Hc.
  apply Option_constructed_cases in Hc.
  destruct Hc as [-> | [v ->]]; split; try reflexivity.
  unfold Option.map, bind, ret; simpl.
  destruct (f v s) as [[y | e] s1]; simpl; [ | reflexivity].
  destruct (g y s1) as [[z | e] s2]; reflexivity.
Qed.

Lemma Option_map_functor_laws_witness :
  Option.map (Option.some (VNum 1)) (fun x => ret x) tt
    = (Normal (Option.some (VNum 1)), tt) /\
  (o <- Option.map (Option.some (VNum 1)) (fun _ => ret (VNum 2)) ;;
   Option.map o (fun _ => throw (VStr "g"))) tt
    = Option.map (Option.some (VNum 1))
        (fun x => y <- (fun _ => ret (VNum 2)) x ;;
                  (fun _ => throw (VStr "g")) y) tt.
Proof.
  apply (Option_map_functor_laws Datatypes.unit (Option.some (VNum 1))
           (fun _ => ret (VNum 2)) (fun _ => throw (VStr "g")) tt).
  unfold Option.constructed; simpl. intros H; discriminate H.
Defined.

(* ------------------------------------------------------------------ *)
(** ** Panics *)

(** C3, as the code has it: the default messages carry back quotes around
    the method and the variant.  [unwrap()] on [None] throws the Error
    [panicked at 'called `Option.unwrap()` on a `None` value'], [unwrap()] on
    an [Err] throws [panicked at 'called `Result.unwrap()` on an `Err`
    value'], and [unwrapErr()] on an [Ok] throws [panicked at 'called
    `Result.unwrapErr()` on an `Ok` value']. *)
Theorem unwrap_default_messages :
  forall (Store : Type) (v e : Value) (s : Store),
    Option.unwrap Option.none s
      = (Throw (VError
           "panicked at 'called `Option.unwrap()` on a `None` value'"), s) /\
    Result.unwrap (Result.err e) s
      = (Throw (VError
           "panicked at 'called `Result.unwrap()` on an `Err` value'"), s) /\
    Result.unwrapErr (Result.ok v) s
      = (Throw (VError
           "panicked at 'called `Result.unwrapErr()` on an `Ok` value'"), s).
Proof. intros. repeat split. Qed.

(** C3 as stated fails: none of the three thrown messages is the string
    without back quotes. *)
Lemma unwrap_messages_without_backquotes_refuted :
  Option.unwrap Option.none tt
    <> (Throw (VError
          "panicked at 'called Option.unwrap() on a None value'"), tt) /\
  Result.unwrap (Result.err VNull) tt
    <> (Throw (VError
          "panicked at 'called Result.unwrap() on an Err value'"), tt) /\
  Result.unwrapErr (Result.ok VNull) tt
    <> (Throw (VError
          "panicked at 'called Result.unwrapErr() on an Ok value'"), tt).
Proof.
  repeat split; vm_compute; intros H; discriminate H.
Qed.

(** C1, as the code has it: a panic is an ordinary thrown [Error].  The
    combinators of Option and Result that call a caller-supplied function
    let a panic raised by that function escape unchanged, but the
    [tryFrom] family catches it like any other exception: for every [fn] that
    panics, [Option.tryFrom(fn)] and [Option.tryFromNullable(fn)] return
    [None], and [Result.tryFrom(fn, e)] and [Result.tryFromNullable(fn, e)]
    return [Err(e)]. *)
Theorem panic_caught_only_by_tryFrom :
  forall (Store : Type) (fn : unit -> JS Store Value) (v error : Value)
         (msg : option string) (s s' : Store),
    fn tt s = (Throw (VError (panic_message msg)), s') ->
    (Option.tryFrom fn s = (Normal Option.none, s') /\
     Option.tryFromNullable fn s = (Normal Option.none, s') /\
     Result.tryFrom fn error s = (Normal (Result.err error), s') /\
     Result.tryFromNullable fn error s = (Normal (Result.err error), s')) /\
    (Option.map (Option.some v) (fun _ => fn tt) s
       = (Throw (VError (panic_message msg)), s') /\
     Option.andThen (Option.some v)
       (fun _ => x <- fn tt ;; ret (Option.some x)) s
       = (Throw (VError (panic_message msg)), s') /\
     Option.unwrapOrElse Option.none fn s
       = (Throw (VError (panic_message msg)), s') /\
     Option.okOrElse Option.none fn s
       = (Throw (VError (panic_message msg)), s') /\
     Result.map (Result.ok v) (fun _ => fn tt) s
       = (Throw (VError (panic_message msg)), s') /\
     Result.mapErr (Result.err v) (fun _ => fn tt) s
       = (Throw (VError (panic_message msg)), s') /\
     Result.andThen (Result.ok v)
       (fun _ => x <- fn tt ;; ret (Result.ok x)) s
       = (Throw (VError (panic_message msg)), s') /\
     Result.unwrapOrElse (Result.err v) fn s
       = (Throw (VError (panic_message msg)), s')).
Proof.
  intros Store fn v error msg s s' H.
  split.
  - unfold Option.tryFrom, Option.tryFromNullable, Result.tryFrom,
      Result.tryFromNullable.
    repeat split;
      (erewrite try_catch_throw; [reflexivity | apply bind_throw; exact H]).
  - unfold Option.map, Option.andThen, Option.unwrapOrElse, Option.okOrElse,
      Result.map, Result.mapErr, Result.andThen, Result.unwrapOrElse; simpl.
    repeat split;
      first [ exact H
            | apply bind_throw; exact H
            | erewrite bind_throw; [reflexivity | apply bind_throw; exact H] ].
Qed.

Lemma panic_caught_only_by_tryFrom_witness :
  Option.tryFrom unwrap_none tt = (Normal Option.none, tt) /\
  Result.tryFrom unwrap_none (VStr "e") tt
    = (Normal (Result.err (VStr "e")), tt).
Proof.
  destruct (panic_caught_only_by_tryFrom Datatypes.unit unwrap_none VNull
              (VStr "e")
              (Some "called `Option.unwrap()` on a `None` value") tt tt
              eq_refl) as [[H1 [_ [H3 _]]] _].
  split; [exact H1 | exact H3].
Defined.

(** C1 as stated fails: [() => Option.none.unwrap()] panics, and each of the
    four [tryFrom] operations returns normally on it. *)
Lemma tryFrom_lets_panic_escape_refuted :
  panics (unwrap_none tt) tt /\
  ~ panics (Option.tryFrom unwrap_none) tt /\
  ~ panics (Option.tryFromNullable unwrap_none) tt /\
  ~ panics (Result.tryFrom unwrap_none (VStr "e")) tt /\
  ~ panics (Result.tryFromNullable unwrap_none (VStr "e")) tt /\
  Option.tryFrom unwrap_none tt = (Normal Option.none, tt) /\
  Option.tryFromNullable unwrap_none tt = (Normal Option.none, tt) /\
  Result.tryFrom unwrap_none (VStr "e") tt
    = (Normal (Result.err (VStr "e")), tt) /\
  Result.tryFromNullable unwrap_none (VStr "e") tt
    = (Normal (Result.err (VStr "e")), tt).
Proof.
  split; [apply unwrap_none_panics | ].
  repeat split; intros [msg [s' H]]; discriminate H.
Qed.

(* ------------------------------------------------------------------ *)
(** ** flatten *)

Lemma Option_flatten_step_depth (this inner : Option) :
  Option.flatten_step this = inl inner ->
  Option_depth inner < Option_depth this.
Proof.
  destruct this as [k d]. unfold Option.flatten_step; simpl.
  destruct (Option.isSome (mkOption k d)); [ | discriminate].
  destruct d; try discriminate.
  intros H. injection H as ->. simpl. lia.
Qed.

Lemma Result_flatten_step_depth (this inner : Result) :
  Result.flatten_step this = inl inner ->
  Result_depth inner < Result_depth this.
Proof.
  destruct this as [k d]. unfold Result.flatten_step; simpl.
  destruct d; try discriminate.
  intros H. injection H as ->. simpl. lia.
Qed.

(** [flatten] unfolds along [flatten_step]. *)
Lemma Option_flatten_unfold (this : Option) :
  Option.flatten this =
  match Option.flatten_step this with
  | inl inner => Option.flatten inner
  | inr r => r
  end.
Proof.
  destruct this as [k d]. unfold Option.flatten_step.
  simpl. destruct (Option.isSome (mkOption k d)); [ | reflexivity].
  destruct d; reflexivity.
Qed.

Lemma Result_flatten_unfold (this : Result) :
  Result.flatten this =
  match Result.flatten_step this with
  | inl inner => Result.flatten inner
  | inr r => r
  end.
Proof.
  destruct this as [k d]. unfold Result.flatten_step.
  simpl. destruct d; reflexivity.
Qed.

Lemma Option_flatten_fuel_enough (fuel : nat) :
  forall this, Option_depth this <= fuel ->
               Option.flatten_fuel fuel this = Some (Option.flatten this).
Proof.
  induction fuel as [ | fuel IH]; intros this Hd.
  - destruct this; simpl in Hd; lia.
  - simpl. rewrite (Option_flatten_unfold this).
    destruct (Option.flatten_step this) as [inner | r] eqn:E; [ | reflexivity].
    apply IH. apply Option_flatten_step_depth in E. lia.
Qed.

Lemma Result_flatten_fuel_enough (fuel : nat) :
  forall this, Result_depth this <= fuel ->
               Result.flatten_fuel fuel this = Some (Result.flatten this).
Proof.
  induction fuel as [ | fuel IH]; intros this Hd.
  - destruct this; simpl in Hd; lia.
  - simpl. rewrite (Result_flatten_unfold this).
    destruct (Result.flatten_step this) as [inner | r] eqn:E; [ | reflexivity].
    apply IH. apply Result_flatten_step_depth in E. lia.
Qed.

(** C10: [Option.flatten] and [Result.flatten] terminate.  Every recursive
    call is on the payload, whose nesting depth is strictly smaller, so the
    call relation is well founded, and running either method for as many
    activations as the depth of its receiver returns the result. *)
Theorem flatten_terminates :
  well_founded (fun inner this => Option.flatten_step this = inl inner) /\
  well_founded (fun inner this => Result.flatten_step this = inl inner) /\
  (forall this inner,
      Option.flatten_step this = inl inner ->
      Option_depth inner < Option_depth this) /\
  (forall this inner,
      Result.flatten_step this = inl inner ->
      Result_depth inner < Result_depth this) /\
  (forall this,
      Option.flatten_fuel (Option_depth this) this
      = Some (Option.flatten this)) /\
  (forall this,
      Result.flatten_fuel (Result_depth this) this
      = Some (Result.flatten this)).
Proof.
  split; [ | split; [ | split; [ | split; [ | split]]]].
  - apply (Wf_nat.well_founded_lt_compat _ Option_depth).
    intros x y. apply Option_flatten_step_depth.
  - apply (Wf_nat.well_founded_lt_compat _ Result_depth).
    intros x y. apply Result_flatten_step_depth.
  - apply Option_flatten_step_depth.
  - apply Result_flatten_step_depth.
  - intros this. now apply Option_flatten_fuel_enough.
  - intros this. now apply Result_flatten_fuel_enough.
Qed.

Lemma flatten_terminates_witness :
  Option_depth (Option.some (VNum 42))
    < Option_depth (Option.some (VOption (Option.some (VNum 42)))) /\
  Result_depth (Result.ok (VNum 42))
    < Result_depth (Result.err (VResult (Result.ok (VNum 42)))) /\
  Option.flatten_fuel 2 (Option.some (VOption (Option.some (VNum 42))))
    = Some (Option.some (VNum 42)).
Proof.
  destruct flatten_terminates as [_ [_ [HO [HR [HfO _]]]]].
  split; [ | split].
  - apply (HO (Option.some (VOption (Option.some (VNum 42))))). reflexivity.
  - apply (HR (Result.err (VResult (Result.ok (VNum 42))))). reflexivity.
  - exact (HfO (Option.some (VOption (Option.some (VNum 42))))).
Defined.

Lemma Option_flatten_negative (this : Option) :
  Option.isSome this = false -> Option.flatten this = this.
Proof. destruct this as [k d]. simpl. intros ->. reflexivity. Qed.

(** C2 at [Result.err(Result.ok(1))]: the receiver is an [Err] whose error
    payload is a Result, and [flatten()] returns the inner [Ok(1)], not the
    receiver; the Option counterpart, a [None], is returned unchanged. *)
Theorem Result_flatten_unwraps_Err_payload :
  let r := Result.err (VResult (Result.ok (VNum 1))) in
  Result.isErr r = true /\
  Result.flatten r = Result.ok (VNum 1) /\
  Result.flatten r <> r /\
  Option.flatten Option.none = Option.none.
Proof.
  repeat split. discriminate.
Qed.

(* ------------------------------------------------------------------ *)
(** ** Result.tryFrom and Result.tryFromNullable *)

(** C5: [Result.tryFrom(fn, e)] is [Ok(fn())] when [fn] returns and [Err(e)]
    when [fn] throws anything; [Result.tryFromNullable(fn, e)] is also
    [Err(e)] when [fn] returns [null] or [undefined], and [Ok] of the result
    otherwise.  With [JSON.parse] taken as a parameter that returns 42 on
    the text 42 and throws on the text invalid,
    [tryFrom(() => JSON.parse("42"), e).unwrap()] is 42 and
    [tryFrom(() => JSON.parse("invalid"), e).unwrapErr()] is [e]. *)
Theorem Result_tryFrom_exact :
  forall (Store : Type) (JSON_parse : string -> Completion Value)
         (fn : unit -> JS Store Value) (e : Value) (s : Store),
    (forall v s', fn tt s = (Normal v, s') ->
       Result.tryFrom fn e s = (Normal (Result.ok v), s')) /\
    (forall x s', fn tt s = (Throw x, s') ->
       Result.tryFrom fn e s = (Normal (Result.err e), s')) /\
    (forall v s', fn tt s = (Normal v, s') ->
       v = VNull \/ v = VUndefined ->
       Result.tryFromNullable fn e s = (Normal (Result.err e), s')) /\
    (forall v s', fn tt s = (Normal v, s') ->
       v <> VNull -> v <> VUndefined ->
       Result.tryFromNullable fn e s = (Normal (Result.ok v), s')) /\
    (forall x s', fn tt s = (Throw x, s') ->
       Result.tryFromNullable fn e s = (Normal (Result.err e), s')) /\
    (JSON_parse "42" = Normal (VNum 42) ->
     (r <- Result.tryFrom (fun _ => lift (JSON_parse "42")) e ;;
      Result.unwrap r) s = (Normal (VNum 42), s)) /\
    (forall x, JSON_parse "invalid" = Throw x ->
     (r <- Result.tryFrom (fun _ => lift (JSON_parse "invalid")) e ;;
      Result.unwrapErr r) s = (Normal e, s)).
Proof.
  intros Store JSON_parse fn e s.
  unfold Result.tryFrom, Result.tryFromNullable.
  split; [ | split; [ | split; [ | split; [ | split; [ | split]]]]].
  - intros v s' H. unfold try_catch. now rewrite (bind_normal _ _ _ _ _ H).
  - intros x s' H. unfold try_catch. now rewrite (bind_throw _ _ _ _ _ H).
  - intros v s' H Hv. unfold try_catch. rewrite (bind_normal _ _ _ _ _ H).
    destruct Hv as [-> | ->]; reflexivity.
  - intros v s' H Hn Hu. unfold try_catch. rewrite (bind_normal _ _ _ _ _ H).
    destruct v; try reflexivity; congruence.
  - intros x s' H. unfold try_catch. now rewrite (bind_throw _ _ _ _ _ H).
  - intros H. unfold bind, try_catch, lift. now rewrite H.
  - intros x H. unfold bind, try_catch, lift. now rewrite H.
Qed.

Lemma Result_tryFrom_exact_witness :
  (r <- Result.tryFrom (fun _ => lift (parse_number_literal "42"))
         (VError "should not happen") ;;
   Result.unwrap r) tt = (Normal (VNum 42), tt) /\
  (r <- Result.tryFrom (fun _ => lift (parse_number_literal "invalid"))
         (VError "should happen") ;;
   Result.unwrapErr r) tt = (Normal (VError "should happen"), tt) /\
  Result.tryFromNullable (fun _ => ret VNull) (VStr "null value error") tt
    = (Normal (Result.err (VStr "null value error")), tt) /\
  Result.tryFromNullable (fun _ => ret (VStr "data")) (VStr "never happens") tt
    = (Normal (Result.ok (VStr "data")), tt).
Proof.
  split; [ | split; [ | split]].
  - apply (Result_tryFrom_exact Datatypes.unit parse_number_literal
             (fun _ => ret VNull) (VError "should not happen") tt).
    reflexivity.
  - apply (Result_tryFrom_exact Datatypes.unit parse_number_literal
             (fun _ => ret VNull) (VError "should happen") tt
           ) with (x := VError "SyntaxError").
    reflexivity.
  - apply (Result_tryFrom_exact Datatypes.unit parse_number_literal
             (fun _ => ret VNull) (VStr "null value error") tt
           ) with (v := VNull); [reflexivity | now left].
  - apply (Result_tryFrom_exact Datatypes.unit parse_number_literal
             (fun _ => ret (VStr "data")) (VStr "never happens") tt
           ); [reflexivity | discriminate | discriminate].
Defined.

(* ------------------------------------------------------------------ *)
(** ** IO: chain and catch *)

Lemma IO_chain_resolved {Store T U} (this : IO Store T)
  (mapper : T -> JS Store (IO Store U)) (s s1 : Store) (v : T) :
  IO.run this s = (Normal (Resolved v), s1) ->
  IO.run (IO.chain this mapper) s
  = Promise.react (io <- mapper v ;; IO.run io) s1.
Proof.
  unfold IO.run, IO.chain; simpl. intros H.
  now rewrite (bind_normal _ _ _ _ _ H).
Qed.

Lemma IO_chain_not_resolved {Store T U} (this : IO Store T)
  (mapper : T -> JS Store (IO Store U)) (s s1 : Store) :
  (forall e, IO.run this s = (Normal (Rejected e), s1) ->
             IO.run (IO.chain this mapper) s = (Normal (Rejected e), s1)) /\
  (IO.run this s = (Normal Pending, s1) ->
   IO.run (IO.chain this mapper) s = (Normal Pending, s1)) /\
  (forall e, IO.run this s = (Throw e, s1) ->
             IO.run (IO.chain this mapper) s = (Throw e, s1)).
Proof.
  unfold IO.run, IO.chain; simpl.
  split; [ | split].
  - intros e H. now rewrite (bind_normal _ _ _ _ _ H).
  - intros H. now rewrite (bind_normal _ _ _ _ _ H).
  - intros e H. now rewrite (bind_throw _ _ _ _ _ H).
Qed.

(** C4: chaining is sequential and stops at the first rejection.  The
    four-stage chain 4, +2, *3, /2 resolves to 9.  A mapper runs on the value
    the previous stage resolved to, at the store that stage left behind; it
    does not run when that stage rejects, never settles or throws, and the
    chained execution then ends the same way.  When the previous stage
    resolves and the container returned by the mapper rejects, the chained
    execution rejects with that reason.  On recording stores the order of
    events is stage 0, mapper 1, stage 1, mapper 2, stage 2, and only stage 0
    when stage 0 rejects. *)
Theorem IO_chain_sequential :
  forall (Store T U : Type) (this : IO Store T)
         (mapper : T -> JS Store (IO Store U)) (s : Store),
    (exists r, IO.run chain_example s = (Normal (Resolved r), s) /\
               Qeq r 9) /\
    (forall v s1,
        IO.run this s = (Normal (Resolved v), s1) ->
        IO.run (IO.chain this mapper) s
        = Promise.react (io <- mapper v ;; IO.run io) s1) /\
    (forall e s1,
        IO.run this s = (Normal (Rejected e), s1) ->
        IO.run (IO.chain this mapper) s = (Normal (Rejected e), s1)) /\
    (forall s1,
        IO.run this s = (Normal Pending, s1) ->
        IO.run (IO.chain this mapper) s = (Normal Pending, s1)) /\
    (forall e s1,
        IO.run this s = (Throw e, s1) ->
        IO.run (IO.chain this mapper) s = (Throw e, s1)) /\
    (forall v s1 next s2 e s3,
        IO.run this s = (Normal (Resolved v), s1) ->
        mapper v s1 = (Normal next, s2) ->
        IO.run next s2 = (Normal (Rejected e), s3) ->
        IO.run (IO.chain this mapper) s = (Normal (Rejected e), s3)) /\
    IO.run (traced_chain (Promise.resolve 4%Q)) []
      = (Normal (Resolved 18%Q),
         ["stage 0"; "mapper 1"; "stage 1"; "mapper 2"; "stage 2"]) /\
    IO.run (traced_chain (Promise.reject (VError "Oops!"))) []
      = (Normal (Rejected (VError "Oops!")), ["stage 0"]).
Proof.
  intros Store T U this mapper s.
  split; [ | split; [ | split; [ | split; [ | split; [ | split; [ | split]]]]]].
  - exists (18 # 2)%Q. split; reflexivity.
  - intros v s1. apply IO_chain_resolved.
  - intros e s1. apply IO_chain_not_resolved.
  - intros s1. apply IO_chain_not_resolved.
  - intros e s1. apply IO_chain_not_resolved.
  - intros v s1 next s2 e s3 H1 H2 H3.
    rewrite (IO_chain_resolved _ _ _ _ _ H1).
    unfold Promise.react. rewrite (bind_normal _ _ _ _ _ H2).
    now rewrite H3.
  - reflexivity.
  - reflexivity.
Qed.

Lemma IO_chain_sequential_witness :
  IO.run (IO.chain (IO.from (inl 5%Q))
            (fun _ => ret (errorIO : IO unit Q))) tt
  = (Normal (Rejected (VError "Oops!")), tt) /\
  IO.run (IO.chain (errorIO : IO unit Q)
            (fun value => ret (IO.from (inl (value * 2)%Q)))) tt
  = (Normal (Rejected (VError "Oops!")), tt).
Proof.
  split.
  - apply (IO_chain_sequential unit Q Q (IO.from (inl 5%Q))
             (fun _ => ret errorIO) tt)
      with (v := 5%Q) (s1 := tt) (next := errorIO) (s2 := tt);
      reflexivity.
  - apply (IO_chain_sequential unit Q Q errorIO
             (fun value => ret (IO.from (inl (value * 2)%Q))) tt).
    reflexivity.
Defined.

(** C8: recovery with [catch].  When the producer rejects,
    [catch(() => IO.from(5))] resolves to 5; the repository's test,
    [IO.fromPromise(() => Promise.reject(new Error("Oops!")))] recovered with
    [IO.from(5)], resolves to 5.  When the producer resolves, the result and
    the store are those of the producer alone whatever the handler is, and a
    handler that counts its calls is left at its count. *)
Theorem IO_catch_recovers :
  forall (Store T : Type) (this : IO Store T)
         (handler : Value -> JS Store (IO Store T)) (five : T) (s : Store)
         (calls : nat),
    (forall e s1,
        IO.run this s = (Normal (Rejected e), s1) ->
        IO.run (IO.catch this (fun _ => ret (IO.from (inl five)))) s
        = (Normal (Resolved five), s1)) /\
    (forall v s1,
        IO.run this s = (Normal (Resolved v), s1) ->
        IO.run (IO.catch this handler) s = (Normal (Resolved v), s1)) /\
    IO.run (IO.catch errorIO (fun _ => ret (IO.from (inl 5%Q)))) s
      = (Normal (Resolved 5%Q), s) /\
    IO.run (IO.catch (IO.from (inl 7%Q))
              (fun _ => spy (IO.from (inl 5%Q)) tt)) calls
      = (Normal (Resolved 7%Q), calls) /\
    IO.run (IO.catch errorIO (fun _ => spy (IO.from (inl 5%Q)) tt)) calls
      = (Normal (Resolved 5%Q), S calls).
Proof.
  intros Store T this handler five s calls.
  unfold IO.run, IO.catch; simpl.
  split; [ | split; [ | split; [ | split]]]; try reflexivity.
  - intros e s1 H. now rewrite (bind_normal _ _ _ _ _ H).
  - intros v s1 H. now rewrite (bind_normal _ _ _ _ _ H).
Qed.

Lemma IO_catch_recovers_witness :
  IO.run (IO.catch (errorIO : IO unit Q)
            (fun _ => ret (IO.from (inl 5%Q)))) tt
  = (Normal (Resolved 5%Q), tt) /\
  IO.run (IO.catch (IO.from (inl 7%Q))
            (fun _ => throw (VStr "handler ran") : JS unit (IO unit Q))) tt
  = (Normal (Resolved 7%Q), tt).
Proof.
  split.
  - apply (IO_catch_recovers unit Q errorIO (fun _ => ret errorIO) 5%Q tt 0)
      with (e := VError "Oops!").
    reflexivity.
  - apply (IO_catch_recovers unit Q (IO.from (inl 7%Q))
             (fun _ => throw (VStr "handler ran")) 5%Q tt 0).
    reflexivity.
Defined.

(* ================================================================== *)
(** * Further properties of the three classes *)

(* ------------------------------------------------------------------ *)
(** ** helpers.ts *)

(** [unimplemented] and [todo] never return: they throw the panic Error whose
    message is the fixed text, followed by a colon and the argument when one
    is given and is not the empty string.  [panic] itself falls back to its
    default text only when the argument is omitted, not when it is empty. *)
Theorem helpers_always_panic :
  forall (Store A : Type) (msg : option string) (c : ascii) (m : string)
         (s : Store),
    panics (unimplemented (A := A) msg) s /\
    panics (todo (A := A) msg) s /\
    unimplemented (A := A) (Some (String c m)) s
      = (Throw (VError ("panicked at 'not implemented: "
                        ++ String c m ++ "'")), s) /\
    todo (A := A) (Some (String c m)) s
      = (Throw (VError ("panicked at 'not yet implemented: "
                        ++ String c m ++ "'")), s) /\
    unimplemented (A := A) (Some "") s = unimplemented None s /\
    unimplemented (A := A) None s
      = (Throw (VError "panicked at 'not implemented'"), s) /\
    todo (A := A) (Some "") s = todo None s /\
    todo (A := A) None s
      = (Throw (VError "panicked at 'not yet implemented'"), s) /\
    panic (A := A) None s
      = (Throw (VError "panicked at 'explicit panic'"), s) /\
    panic (A := A) (Some "") s = (Throw (VError "panicked at ''"), s).
Proof.
  intros Store A msg c m s.
  split; [ | split]; [ | | repeat split].
  - eexists _, s. reflexivity.
  - eexists _, s. reflexivity.
Qed.

(* ------------------------------------------------------------------ *)
(** ** Option *)

Lemma Option_wf_constructed (o : Option) :
  Option_wf o = true -> Option.constructed o.
Proof.
  destruct o as [[ | ] d]; unfold Option.constructed; simpl.
  - intros _ H. discriminate H.
  - destruct d; intros H; try discriminate H. reflexivity.
Qed.

Lemma Option_flatten_step_inr (this r : Option) :
  Option.flatten_step this = inr r -> r = this.
Proof.
  unfold Option.flatten_step.
  destruct (Option.isSome this); [destruct (Option.data this) | ];
    intros H; now inversion H.
Qed.

Lemma Result_flatten_step_inr (this r : Result) :
  Result.flatten_step this = inr r -> r = this.
Proof.
  unfold Result.flatten_step.
  destruct (Result.data this); intros H; now inversion H.
Qed.

(** Induction along the recursive calls of [Option.flatten]. *)
Lemma Option_flatten_induction (P : Option -> Prop) :
  (forall this,
      (forall inner, Option.flatten_step this = inl inner -> P inner) ->
      P this) ->
  forall this, P this.
Proof.
  intros step.
  apply (well_founded_induction
           (Wf_nat.well_founded_lt_compat _ Option_depth
              (fun inner this => Option.flatten_step this = inl inner)
              (fun x y => Option_flatten_step_depth y x))).
  exact step.
Qed.

Lemma Result_flatten_induction (P : Result -> Prop) :
  (forall this,
      (forall inner, Result.flatten_step this = inl inner -> P inner) ->
      P this) ->
  forall this, P this.
Proof.
  intros step.
  apply (well_founded_induction
           (Wf_nat.well_founded_lt_compat _ Result_depth
              (fun inner this => Result.flatten_step this = inl inner)
              (fun x y => Result_flatten_step_depth y x))).
  exact step.
Qed.

(** A container is in exactly one variant: [isNone] is the negation of
    [isSome] and [isErr] the negation of [isOk], and the factories give the
    variant their name says. *)
Theorem variant_exclusive :
  forall (o : Option) (r : Result) (v : Value),
    Option.isNone o = negb (Option.isSome o) /\
    Result.isErr r = negb (Result.isOk r) /\
    Option.isSome (Option.some v) = true /\
    Option.isSome Option.none = false /\
    Result.isOk (Result.ok v) = true /\
    Result.isOk (Result.err v) = false.
Proof.
  intros [[ | ] d] [[ | ] e] v; repeat split.
Qed.

(** The class invariant is established by the factories and kept by the
    combinators: when the arguments are well formed (every [None] inside
    them holds [undefined]), so are [some(v)], [none], [fromNullable(v)],
    [a.and(b)], [a.or(b)], [a.flatten()], [a.okOr(e)], and the containers
    returned by [tryFrom], [tryFromNullable] and [map] for functions that
    return well-formed values. *)
Theorem Option_invariant_kept :
  forall (Store : Type) (v e : Value) (a b : Option)
         (fn : unit -> JS Store Value) (mapper : Value -> JS Store Value)
         (s : Store),
    Value_wf v = true -> Value_wf e = true ->
    Option_wf a = true -> Option_wf b = true ->
    (forall x s1, fn tt s = (Normal x, s1) -> Value_wf x = true) ->
    (forall x s1, mapper (Option.data a) s = (Normal x, s1) ->
                  Value_wf x = true) ->
    Option_wf (Option.some v) = true /\
    Option_wf Option.none = true /\
    Option_wf (Option.fromNullable v) = true /\
    Option_wf (Option.and a b) = true /\
    Option_wf (Option.or a b) = true /\
    Option_wf (Option.flatten a) = true /\
    Result_wf (Option.okOr a e) = true /\
    (forall o s1, Option.tryFrom fn s = (Normal o, s1) -> Option_wf o = true) /\
    (forall o s1, Option.tryFromNullable fn s = (Normal o, s1) ->
                  Option_wf o = true) /\
    (forall o s1, Option.map a mapper s = (Normal o, s1) ->
                  Option_wf o = true).
Proof.
  intros Store v e a b fn mapper s Hv He Ha Hb Hfn Hm.
  assert (Hfrom : forall x, Value_wf x = true ->
                            Option_wf (Option.fromNullable x) = true).
  { intros x Hx. destruct x; simpl; auto. }
  repeat match goal with |- _ /\ _ => split end; auto.
  - destruct a as [[ | ] d]; simpl; auto.
  - destruct a as [[ | ] d]; simpl; auto.
  - clear Hm. revert Ha. pattern a. apply Option_flatten_induction.
    clear a. intros this IH Hwf.
    rewrite Option_flatten_unfold.
    destruct (Option.flatten_step this) as [inner | r] eqn:E.
    + apply (IH inner eq_refl).
      destruct this as [[ | ] d]; try discriminate E.
      destruct d; try discriminate E.
      injection E as <-. exact Hwf.
    + apply Option_flatten_step_inr in E. now subst r.
  - destruct a as [[ | ] d]; simpl; auto.
  - intros o s1. unfold Option.tryFrom, try_catch, bind, ret.
    destruct (fn tt s) as [[x | x] s2] eqn:E; intros H; inversion H; subst.
    + simpl. eapply Hfn. reflexivity.
    + reflexivity.
  - intros o s1. unfold Option.tryFromNullable, try_catch, bind, ret.
    destruct (fn tt s) as [[x | x] s2] eqn:E; intros H; inversion H; subst.
    + apply Hfrom. eapply Hfn. reflexivity.
    + reflexivity.
  - intros o s1. unfold Option.map, bind, ret.
    destruct (Option.isSome a).
    + destruct (mapper (Option.data a) s) as [[x | x] s2] eqn:E;
        intros H; inversion H; subst.
      simpl. eapply Hm. reflexivity.
    + intros H; inversion H. reflexivity.
Qed.

Lemma Option_invariant_kept_witness :
  Option_wf (Option.flatten
               (Option.some (VOption (Option.some (VOption Option.none)))))
    = true /\
  Option_wf (Option.or Option.none (Option.some VNull)) = true.
Proof.
  destruct (Option_invariant_kept Datatypes.unit (VNum 1) (VStr "e")
              (Option.some (VOption (Option.some (VOption Option.none))))
              (Option.some VNull)
              (fun _ => ret (VNum 2)) (fun x => ret x) tt
              eq_refl eq_refl eq_refl eq_refl)
    as [_ [_ [_ [_ [_ [H _]]]]]].
  - intros x s1 H. now inversion H.
  - intros x s1 H. now inversion H.
  - split; [exact H | ].
    apply (Option_invariant_kept Datatypes.unit (VNum 1) (VStr "e")
             Option.none (Option.some VNull)
             (fun _ => ret (VNum 2)) (fun x => ret x) tt
             eq_refl eq_refl eq_refl eq_refl).
    + intros x s1 H0. now inversion H0.
    + intros x s1 H0. now inversion H0.
Defined.

(** [Option.andThen] obeys the monad laws with [Option.some] as unit:
    [some(v).andThen(f)] is [f(v)], [opt.andThen(some)] is [opt], and
    chaining [f] then [g] is chaining their composite; [flatMap] is the same
    operation and [map(f)] is [andThen] with [some] after [f]. *)
Theorem Option_andThen_monad_laws :
  forall (Store : Type) (opt : Option) (v : Value)
         (f g : Value -> JS Store Option) (h : Value -> JS Store Value)
         (s : Store),
    Option.constructed opt ->
    Option.andThen (Option.some v) f s = f v s /\
    Option.andThen opt (fun x => ret (Option.some x)) s = (Normal opt, s) /\
    (o <- Option.andThen opt f ;; Option.andThen o g) s
      = Option.andThen opt (fun x => o <- f x ;; Option.andThen o g) s /\
    Option.flatMap opt f s = Option.andThen opt f s /\
    Option.map opt h s
      = Option.andThen opt (fun x => y <- h x ;; ret (Option.some y)) s.
Proof.
  intros Store opt v f g h s Hc.
  apply Option_constructed_cases in Hc.
  destruct Hc as [-> | [w ->]]; repeat split.
Qed.

Lemma Option_andThen_monad_laws_witness :
  Option.andThen (Option.some (VNum 1))
    (fun x => ret (Option.some x)) tt
  = (Normal (Option.some (VNum 1)), tt).
Proof.
  apply (Option_andThen_monad_laws Datatypes.unit (Option.some (VNum 1))
           VNull (fun _ => ret Option.none) (fun _ => ret Option.none)
           (fun x => ret x) tt).
  unfold Option.constructed; simpl. intros H; discriminate H.
Defined.

(** Short-circuiting of Option.  On a [Some] the lazily supplied
    alternatives of [unwrapOrElse], [mapOrElse], [orElse] and the [none]
    branch of [match] are never run: result and store are fixed whatever
    those functions do.  On [None] the functions given to [map], [andThen],
    [flatMap], [isSomeAnd], [filter], [mapOr], [mapOrElse] and the [some]
    branch of [match] are never run. *)
Theorem Option_short_circuit :
  forall (Store U : Type) (v : Value) (u : U)
         (lazy : unit -> JS Store Value) (lazyU : unit -> JS Store U)
         (lazyO : unit -> JS Store Option)
         (mapper : Value -> JS Store Value) (mapperU : Value -> JS Store U)
         (mapperO : Value -> JS Store Option)
         (predicate : Value -> JS Store bool) (s : Store),
    (Option.unwrapOrElse (Option.some v) lazy s = (Normal v, s) /\
     Option.mapOrElse (Option.some v) lazyU mapperU s = mapperU v s /\
     Option.orElse (Option.some v) lazyO s = (Normal (Option.some v), s) /\
     Option.match_ (Option.some v) mapperU lazyU s = mapperU v s) /\
    (Option.map Option.none mapper s = (Normal Option.none, s) /\
     Option.andThen Option.none mapperO s = (Normal Option.none, s) /\
     Option.flatMap Option.none mapperO s = (Normal Option.none, s) /\
     Option.isSomeAnd Option.none predicate s = (Normal false, s) /\
     Option.filter Option.none predicate s = (Normal Option.none, s) /\
     Option.mapOr Option.none u mapperU s = (Normal u, s) /\
     Option.mapOrElse Option.none lazyU mapperU s = lazyU tt s /\
     Option.match_ Option.none mapperU lazyU s = lazyU tt s).
Proof.
  intros. repeat split.
Qed.

(** [filter] returns the receiver or [none], never anything else; it keeps a
    [Some] exactly when the predicate returns true, and whether its result is
    a [Some] is what [isSomeAnd] answers.  An exception of the predicate
    escapes. *)
Theorem Option_filter_spec :
  forall (Store : Type) (this : Option) (v : Value)
         (predicate : Value -> JS Store bool) (s : Store),
    (forall o s1, Option.filter this predicate s = (Normal o, s1) ->
                  o = this \/ o = Option.none) /\
    (forall s1, predicate v s = (Normal true, s1) ->
                Option.filter (Option.some v) predicate s
                = (Normal (Option.some v), s1)) /\
    (forall s1, predicate v s = (Normal false, s1) ->
                Option.filter (Option.some v) predicate s
                = (Normal Option.none, s1)) /\
    (forall x s1, predicate v s = (Throw x, s1) ->
                  Option.filter (Option.some v) predicate s = (Throw x, s1)) /\
    (o <- Option.filter this predicate ;; ret (Option.isSome o)) s
      = Option.isSomeAnd this predicate s.
Proof.
  intros Store this v predicate s.
  unfold Option.filter, Option.isSomeAnd.
  split; [ | split; [ | split; [ | split]]].
  - intros o s1. unfold bind, ret.
    destruct (Option.isSome this).
    + destruct (predicate (Option.data this) s) as [[[ | ] | x] s2];
        intros H; inversion H; auto.
    + intros H; inversion H; auto.
  - intros s1 H. simpl. now rewrite (bind_normal _ _ _ _ _ H).
  - intros s1 H. simpl. now rewrite (bind_normal _ _ _ _ _ H).
  - intros x s1 H. simpl. now rewrite (bind_throw _ _ _ _ _ H).
  - unfold bind, ret. destruct this as [[ | ] d]; simpl; [ | reflexivity].
    destruct (predicate d s) as [[[ | ] | x] s2]; reflexivity.
Qed.

Lemma Option_filter_spec_witness :
  Option.filter (Option.some (VNum 3)) (fun _ => ret false) tt
  = (Normal Option.none, tt) /\
  Option.filter (Option.some (VNum 3)) (fun _ => ret true) tt
  = (Normal (Option.some (VNum 3)), tt).
Proof.
  split.
  - apply (Option_filter_spec Datatypes.unit Option.none (VNum 3)
             (fun _ => ret false) tt).
    reflexivity.
  - apply (Option_filter_spec Datatypes.unit Option.none (VNum 3)
             (fun _ => ret true) tt).
    reflexivity.
Defined.

(** [and] and [or] on Options behave as conjunction and disjunction of the
    variants: the result of [a.and(b)] is a [Some] exactly when both are,
    that of [a.or(b)] when one is; both are associative; [none] absorbs on
    the left of [and] and is neutral on the left of [or]; [or] keeps the
    first [Some] and [and] yields the second operand. *)
Theorem Option_and_or_algebra :
  forall (a b c : Option) (v : Value),
    Option.isSome (Option.and a b) = Option.isSome a && Option.isSome b /\
    Option.isSome (Option.or a b) = Option.isSome a || Option.isSome b /\
    Option.and (Option.and a b) c = Option.and a (Option.and b c) /\
    Option.or (Option.or a b) c = Option.or a (Option.or b c) /\
    Option.and Option.none b = Option.none /\
    Option.or Option.none b = b /\
    Option.and (Option.some v) b = b /\
    Option.or (Option.some v) b = Option.some v.
Proof.
  intros [[ | ] da] [[ | ] db] c v; repeat split.
Qed.

(** [Option.flatten] peels [Some] layers until the payload is not an Option
    or a [None] is met: [some(o).flatten()] is [o.flatten()], a [None] and a
    [Some] of a non-Option are returned as they are, the result is never a
    [Some] holding an Option, flattening twice is flattening once, and the
    result is no deeper than the receiver. *)
Theorem Option_flatten_spec :
  forall (this inner : Option),
    Option.flatten (Option.some (VOption inner)) = Option.flatten inner /\
    (Option.isSome this = false -> Option.flatten this = this) /\
    ((forall o, Option.data this <> VOption o) ->
     Option.flatten this = this) /\
    (Option.isSome (Option.flatten this) = true ->
     forall o, Option.data (Option.flatten this) <> VOption o) /\
    Option.flatten (Option.flatten this) = Option.flatten this /\
    Option_depth (Option.flatten this) <= Option_depth this.
Proof.
  intros this inner.
  split; [reflexivity | ].
  split; [apply Option_flatten_negative | ].
  split.
  { destruct this as [[ | ] d]; [ | reflexivity].
    destruct d; try reflexivity.
    intros H. now destruct (H o). }
  assert (Hfix : Option.flatten_step (Option.flatten this)
                 = inr (Option.flatten this)).
  { pattern this. apply Option_flatten_induction. clear this.
    intros this IH. rewrite (Option_flatten_unfold this).
    destruct (Option.flatten_step this) as [i | r] eqn:E.
    - now apply IH.
    - pose proof (Option_flatten_step_inr _ _ E) as Hr. subst r. exact E. }
  split; [ | split].
  - intros Hs o Hd. unfold Option.flatten_step in Hfix.
    rewrite Hs, Hd in Hfix. discriminate Hfix.
  - rewrite (Option_flatten_unfold (Option.flatten this)). now rewrite Hfix.
  - pattern this. apply Option_flatten_induction.
    intros o IH. rewrite (Option_flatten_unfold o).
    destruct (Option.flatten_step o) as [i | r] eqn:E.
    + specialize (IH i eq_refl). apply Option_flatten_step_depth in E. lia.
    + apply Option_flatten_step_inr in E. subst r. lia.
Qed.

Lemma Option_flatten_spec_witness :
  Option.flatten Option.none = Option.none /\
  Option.flatten (Option.some (VNum 42)) = Option.some (VNum 42) /\
  Option.data (Option.flatten
                 (Option.some (VOption (Option.some (VNum 42)))))
    <> VOption Option.none.
Proof.
  split; [ | split].
  - destruct (Option_flatten_spec Option.none Option.none)
      as [_ [H _]].
    apply H. reflexivity.
  - destruct (Option_flatten_spec (Option.some (VNum 42)) Option.none)
      as [_ [_ [H _]]].
    apply H. intros o Ho. discriminate Ho.
  - destruct (Option_flatten_spec
                (Option.some (VOption (Option.some (VNum 42)))) Option.none)
      as [_ [_ [_ [H _]]]].
    apply H. reflexivity.
Defined.

(** [expect] and [expectErr] with a caller's message: on the wrong variant
    they throw the Error [panicked at '<message>'] and leave the store
    alone; on the right variant they return the payload.  On every Result
    exactly one of [unwrap] and [unwrapErr] returns, and it returns the
    payload. *)
Theorem expect_custom_message :
  forall (Store : Type) (v : Value) (message : string) (r : Result)
         (s : Store),
    Option.expect Option.none message s
      = (Throw (VError ("panicked at '" ++ message ++ "'")), s) /\
    Result.expect (Result.err v) message s
      = (Throw (VError ("panicked at '" ++ message ++ "'")), s) /\
    Result.expectErr (Result.ok v) message s
      = (Throw (VError ("panicked at '" ++ message ++ "'")), s) /\
    Option.expect (Option.some v) message s = (Normal v, s) /\
    Result.expect (Result.ok v) message s = (Normal v, s) /\
    Result.expectErr (Result.err v) message s = (Normal v, s) /\
    ((Result.unwrap r s = (Normal (Result.data r), s) /\
      panics (Result.unwrapErr r) s) \/
     (Result.unwrapErr r s = (Normal (Result.data r), s) /\
      panics (Result.unwrap r) s)).
Proof.
  intros Store v message r s.
  repeat match goal with |- _ /\ _ => split end; try reflexivity.
  destruct r as [[ | ] d]; [left | right]; (split; [reflexivity | ]);
    eexists _, s; reflexivity.
Qed.

(** [match] runs exactly one branch, chosen by the variant, on the payload;
    with the factories as branches it gives the receiver back, for every
    Result and every constructed Option. *)
Theorem match_runs_one_branch :
  forall (Store U : Type) (v : Value) (opt : Option) (r : Result)
         (on_some on_ok on_err : Value -> JS Store U)
         (on_none : unit -> JS Store U) (s : Store),
    Option.match_ (Option.some v) on_some on_none s = on_some v s /\
    Option.match_ Option.none on_some on_none s = on_none tt s /\
    Result.match_ (Result.ok v) on_ok on_err s = on_ok v s /\
    Result.match_ (Result.err v) on_ok on_err s = on_err v s /\
    Result.match_ r (fun x => ret (Result.ok x))
                    (fun x => ret (Result.err x)) s = (Normal r, s) /\
    (Option.constructed opt ->
     Option.match_ opt (fun x => ret (Option.some x))
                       (fun _ => ret Option.none) s = (Normal opt, s)).
Proof.
  intros Store U v opt [[ | ] d] **.
  all: repeat match goal with |- _ /\ _ => split end; try reflexivity.
  all: intros Hc; apply Option_constructed_cases in Hc;
    destruct Hc as [-> | [w ->]]; reflexivity.
Qed.

Lemma match_runs_one_branch_witness :
  Option.match_ Option.none (fun x => ret (Option.some x))
                (fun _ => ret Option.none) tt = (Normal Option.none, tt).
Proof.
  destruct (match_runs_one_branch Datatypes.unit Option VNull Option.none
              (Result.ok VNull) (fun x => ret (Option.some x))
              (fun _ => ret Option.none) (fun _ => ret Option.none)
              (fun _ => ret Option.none) tt)
    as [_ [_ [_ [_ [_ H]]]]].
  apply H. unfold Option.constructed. reflexivity.
Defined.

(** [fromNullable] in both classes: the result is the positive variant
    exactly when the value is neither [null] nor [undefined], and then it
    holds that value; otherwise it is [none], or [Err] of the given error.
    Followed by [unwrapOr(d)] it yields the value, or [d] in place of
    [null] and [undefined]. *)
Theorem fromNullable_spec :
  forall (v e d : Value),
    Option.isSome (Option.fromNullable v)
      = negb (is_null v || is_undefined v) /\
    Result.isOk (Result.fromNullable v e)
      = negb (is_null v || is_undefined v) /\
    (Option.isSome (Option.fromNullable v) = true ->
     Option.fromNullable v = Option.some v /\ v <> VNull /\ v <> VUndefined) /\
    (Option.isSome (Option.fromNullable v) = false ->
     Option.fromNullable v = Option.none) /\
    (Result.isErr (Result.fromNullable v e) = true ->
     Result.fromNullable v e = Result.err e) /\
    (Result.isOk (Result.fromNullable v e) = true ->
     Result.fromNullable v e = Result.ok v) /\
    Option.unwrapOr (Option.fromNullable v) d
      = (if is_null v || is_undefined v then d else v) /\
    Result.unwrapOr (Result.fromNullable v e) d
      = (if is_null v || is_undefined v then d else v).
Proof.
  intros v e d.
  destruct v; simpl; repeat split; try reflexivity; try discriminate.
Qed.

Lemma fromNullable_spec_witness :
  Option.fromNullable (VNum 0) = Option.some (VNum 0) /\
  Result.fromNullable VUndefined (VStr "missing") = Result.err (VStr "missing").
Proof.
  split.
  - destruct (fromNullable_spec (VNum 0) VNull VNull) as [_ [_ [H _]]].
    apply H. reflexivity.
  - destruct (fromNullable_spec VUndefined (VStr "missing") VNull)
      as [_ [_ [_ [_ [H _]]]]].
    apply H. reflexivity.
Defined.

(** The [tryFrom] family contains every exception: whatever [fn] does, the
    four operations return a container and never throw, and the store is the
    one [fn] left behind. *)
Theorem tryFrom_never_throws :
  forall (Store : Type) (fn : unit -> JS Store Value) (e : Value) (s : Store),
    (exists o, Option.tryFrom fn s = (Normal o, snd (fn tt s))) /\
    (exists o, Option.tryFromNullable fn s = (Normal o, snd (fn tt s))) /\
    (exists r, Result.tryFrom fn e s = (Normal r, snd (fn tt s))) /\
    (exists r, Result.tryFromNullable fn e s = (Normal r, snd (fn tt s))).
Proof.
  intros Store fn e s.
  unfold Option.tryFrom, Option.tryFromNullable, Result.tryFrom,
    Result.tryFromNullable, try_catch, bind, ret.
  destruct (fn tt s) as [[x | x] s1]; simpl; repeat split; eexists;
    reflexivity.
Qed.

(** [tryFromNullable] is [tryFrom] followed by [fromNullable] on the value
    obtained, in both classes. *)
Theorem tryFromNullable_composes :
  forall (Store : Type) (fn : unit -> JS Store Value) (e : Value) (s : Store),
    Option.tryFromNullable fn s
      = (o <- Option.tryFrom fn ;;
         Option.andThen o (fun x => ret (Option.fromNullable x))) s /\
    Result.tryFromNullable fn e s
      = (r <- Result.tryFrom fn e ;;
         Result.andThen r (fun x => ret (Result.fromNullable x e))) s.
Proof.
  intros Store fn e s.
  unfold Option.tryFromNullable, Option.tryFrom, Result.tryFromNullable,
    Result.tryFrom, try_catch, bind, ret.
  destruct (fn tt s) as [[x | x] s1]; split; reflexivity.
Qed.

(** Option and Result agree through [okOr]: [fromNullable(v).okOr(e)] is
    [Result.fromNullable(v, e)]; [okOr] turns [isSome] into [isOk], commutes
    with [map], and [okOr(e).unwrapOr(d)] is [unwrapOr(d)]. *)
Theorem okOr_commutes :
  forall (Store : Type) (opt : Option) (v e d : Value)
         (f : Value -> JS Store Value) (s : Store),
    Option.okOr (Option.fromNullable v) e = Result.fromNullable v e /\
    Result.isOk (Option.okOr opt e) = Option.isSome opt /\
    (o <- Option.map opt f ;; ret (Option.okOr o e)) s
      = Result.map (Option.okOr opt e) f s /\
    Result.unwrapOr (Option.okOr opt e) d = Option.unwrapOr opt d.
Proof.
  intros Store [[ | ] dd] v e d f s.
  all: repeat match goal with |- _ /\ _ => split end; try reflexivity.
  all: try (destruct v; reflexivity).
  unfold Option.map, Result.map, bind, ret; simpl.
  destruct (f dd s) as [[y | y] s1]; reflexivity.
Qed.

(* ------------------------------------------------------------------ *)
(** ** Result *)

(** [Result.map] and [Result.mapErr] are functors on their own side and
    leave the other side alone: mapping the identity gives the receiver
    back, mapping twice is mapping the composite, [map] never runs its
    function on an [Err] nor [mapErr] on an [Ok], and the two commute. *)
Theorem Result_map_mapErr_laws :
  forall (Store : Type) (r : Result) (v : Value)
         (f g : Value -> JS Store Value) (s : Store),
    Result.map r (fun x => ret x) s = (Normal r, s) /\
    Result.mapErr r (fun x => ret x) s = (Normal r, s) /\
    (r' <- Result.map r f ;; Result.map r' g) s
      = Result.map r (fun x => y <- f x ;; g y) s /\
    (r' <- Result.mapErr r f ;; Result.mapErr r' g) s
      = Result.mapErr r (fun x => y <- f x ;; g y) s /\
    Result.map (Result.err v) f s = (Normal (Result.err v), s) /\
    Result.mapErr (Result.ok v) f s = (Normal (Result.ok v), s) /\
    (r' <- Result.map r f ;; Result.mapErr r' g) s
      = (r' <- Result.mapErr r g ;; Result.map r' f) s.
Proof.
  intros Store [[ | ] d] v f g s.
  all: unfold Result.map, Result.mapErr, bind, ret; simpl.
  all: repeat match goal with |- _ /\ _ => split end; try reflexivity.
  all: try (destruct (f d s) as [[y | y] s1]; simpl; try reflexivity;
            destruct (g y s1) as [[z | z] s2]; reflexivity).
  all: destruct (g d s) as [[y | y] s1]; reflexivity.
Qed.

(** [Result.andThen] obeys the monad laws with [Result.ok] as unit and
    [Result.orElse] obeys them on the error side with [Result.err] as unit;
    [flatMap] is [andThen]; an [Err] passes through [andThen] and an [Ok]
    through [orElse] without the function being run. *)
Theorem Result_andThen_orElse_laws :
  forall (Store : Type) (r : Result) (v : Value)
         (f g : Value -> JS Store Result) (s : Store),
    Result.andThen (Result.ok v) f s = f v s /\
    Result.andThen r (fun x => ret (Result.ok x)) s = (Normal r, s) /\
    (r' <- Result.andThen r f ;; Result.andThen r' g) s
      = Result.andThen r (fun x => r' <- f x ;; Result.andThen r' g) s /\
    Result.orElse (Result.err v) f s = f v s /\
    Result.orElse r (fun x => ret (Result.err x)) s = (Normal r, s) /\
    (r' <- Result.orElse r f ;; Result.orElse r' g) s
      = Result.orElse r (fun x => r' <- f x ;; Result.orElse r' g) s /\
    Result.flatMap r f s = Result.andThen r f s /\
    Result.andThen (Result.err v) f s = (Normal (Result.err v), s) /\
    Result.orElse (Result.ok v) f s = (Normal (Result.ok v), s).
Proof.
  intros Store [[ | ] d] v f g s; repeat split.
Qed.

(** [and] and [or] on Results: [a.and(b)] is [Ok] exactly when both are and
    otherwise carries the first error met; [a.or(b)] is [Ok] exactly when
    one is and keeps the first [Ok]; both are associative. *)
Theorem Result_and_or_algebra :
  forall (a b c : Result) (v : Value),
    Result.isOk (Result.and a b) = Result.isOk a && Result.isOk b /\
    Result.isOk (Result.or a b) = Result.isOk a || Result.isOk b /\
    Result.and (Result.err v) b = Result.err v /\
    Result.and (Result.ok v) b = b /\
    Result.or (Result.ok v) b = Result.ok v /\
    Result.or (Result.err v) b = b /\
    Result.and (Result.and a b) c = Result.and a (Result.and b c) /\
    Result.or (Result.or a b) c = Result.or a (Result.or b c).
Proof.
  intros [[ | ] da] [[ | ] db] c v; repeat split.
Qed.

(** Short-circuiting of Result.  On an [Ok] the alternatives of
    [unwrapOrElse] and [mapOrElse] and the predicate of [isErrAnd] are never
    run; on an [Err] the functions of [mapOr], [mapOrElse] and [isOkAnd] are
    never run; [unwrapOr] returns the payload of an [Ok] and the default on
    an [Err]. *)
Theorem Result_short_circuit :
  forall (Store U : Type) (v d : Value) (u : U)
         (lazy : unit -> JS Store Value) (lazyU : unit -> JS Store U)
         (mapperU : Value -> JS Store U)
         (predicate : Value -> JS Store bool) (s : Store),
    (Result.unwrapOrElse (Result.ok v) lazy s = (Normal v, s) /\
     Result.mapOrElse (Result.ok v) lazyU mapperU s = mapperU v s /\
     Result.isErrAnd (Result.ok v) predicate s = (Normal false, s) /\
     Result.unwrapOr (Result.ok v) d = v) /\
    (Result.mapOr (Result.err v) u mapperU s = (Normal u, s) /\
     Result.mapOrElse (Result.err v) lazyU mapperU s = lazyU tt s /\
     Result.unwrapOrElse (Result.err v) lazy s = lazy tt s /\
     Result.isOkAnd (Result.err v) predicate s = (Normal false, s) /\
     Result.unwrapOr (Result.err v) d = d).
Proof.
  intros. repeat split.
Qed.

(** [Result.flatten] on successes: [Ok(Ok(x))] flattens to [Ok(x)] and
    [Ok(Err(e))] to [Err(e)] when [x] and [e] are not Results, a Result
    whose payload is not a Result is returned as it is, a result that is
    an [Ok] never holds a Result, flattening twice is flattening once, and the result is no
    deeper than the receiver. *)
Theorem Result_flatten_spec :
  forall (this : Result) (x : Value),
    ((forall r, x <> VResult r) ->
     Result.flatten (Result.ok (VResult (Result.ok x))) = Result.ok x /\
     Result.flatten (Result.ok (VResult (Result.err x))) = Result.err x) /\
    ((forall r, Result.data this <> VResult r) ->
     Result.flatten this = this) /\
    (Result.isOk (Result.flatten this) = true ->
     forall r, Result.data (Result.flatten this) <> VResult r) /\
    Result.flatten (Result.flatten this) = Result.flatten this /\
    Result_depth (Result.flatten this) <= Result_depth this.
Proof.
  intros this x.
  assert (Hplain : forall t, (forall r, Result.data t <> VResult r) ->
                             Result.flatten t = t).
  { intros [k d] H. destruct d; try reflexivity. now destruct (H r). }
  split.
  { intros H. split; simpl; destruct x; try reflexivity; now destruct (H r). }
  split; [apply Hplain | ].
  assert (Hfix : Result.flatten_step (Result.flatten this)
                 = inr (Result.flatten this)).
  { pattern this. apply Result_flatten_induction. clear this.
    intros this IH. rewrite (Result_flatten_unfold this).
    destruct (Result.flatten_step this) as [i | r] eqn:E.
    - now apply IH.
    - pose proof (Result_flatten_step_inr _ _ E) as Hr. subst r. exact E. }
  split; [ | split].
  - intros _ r Hd. unfold Result.flatten_step in Hfix.
    rewrite Hd in Hfix. discriminate Hfix.
  - rewrite (Result_flatten_unfold (Result.flatten this)). now rewrite Hfix.
  - pattern this. apply Result_flatten_induction.
    intros o IH. rewrite (Result_flatten_unfold o).
    destruct (Result.flatten_step o) as [i | r] eqn:E.
    + specialize (IH i eq_refl). apply Result_flatten_step_depth in E. lia.
    + apply Result_flatten_step_inr in E. subst r. lia.
Qed.

Lemma Result_flatten_spec_witness :
  Result.flatten (Result.ok (VResult (Result.ok (VNum 42))))
    = Result.ok (VNum 42) /\
  Result.flatten (Result.ok (VStr "data")) = Result.ok (VStr "data").
Proof.
  split.
  - destruct (Result_flatten_spec (Result.ok VNull) (VNum 42)) as [H _].
    apply H. intros r Hr. discriminate Hr.
  - destruct (Result_flatten_spec (Result.ok (VStr "data")) VNull)
      as [_ [H _]].
    apply H. intros r Hr. discriminate Hr.
Defined.

(* ------------------------------------------------------------------ *)
(** ** IO *)

Lemma react_react {Store U} (c : JS Store (Promise U)) (s : Store) :
  Promise.react (Promise.react c) s = Promise.react c s.
Proof.
  unfold Promise.react. destruct (c s) as [[q | e] s1]; reflexivity.
Qed.



(** What [IO.catch] does in each case.  When the producer rejects, the
    handler runs on the reason at the store the producer left and the
    container it returns is run; an exception of the handler, or a
    rejection of that container, rejects the whole.  A handler that
    rejects again with the reason it got changes nothing.  When the
    producer never settles, or throws before it returns a promise, the
    handler is not run: the outcome is that of the producer. *)
Theorem IO_catch_cases :
  forall (Store T : Type) (this : IO Store T)
         (handler : Value -> JS Store (IO Store T)) (s : Store),
    (forall e s1,
        IO.run this s = (Normal (Rejected e), s1) ->
        IO.run (IO.catch this handler) s
        = Promise.react (next <- handler e ;; IO.run next) s1) /\
    (forall e s1 x s2,
        IO.run this s = (Normal (Rejected e), s1) ->
        handler e s1 = (Throw x, s2) ->
        IO.run (IO.catch this handler) s = (Normal (Rejected x), s2)) /\
    (forall e s1 next s2 x s3,
        IO.run this s = (Normal (Rejected e), s1) ->
        handler e s1 = (Normal next, s2) ->
        IO.run next s2 = (Normal (Rejected x), s3) ->
        IO.run (IO.catch this handler) s = (Normal (Rejected x), s3)) /\
    IO.run (IO.catch this
              (fun e => ret (IO.fromPromise (ret (Promise.reject e))))) s
      = IO.run this s /\
    (forall s1,
        IO.run this s = (Normal Pending, s1) ->
        IO.run (IO.catch this handler) s = (Normal Pending, s1)) /\
    (forall x s1,
        IO.run this s = (Throw x, s1) ->
        IO.run (IO.catch this handler) s = (Throw x, s1)).
Proof.
  intros Store T this handler s.
  unfold IO.run, IO.catch; simpl.
  split; [ | split; [ | split; [ | split; [ | split]]]].
  - intros e s1 H. now rewrite (bind_normal _ _ _ _ _ H).
  - intros e s1 x s2 H1 H2. rewrite (bind_normal _ _ _ _ _ H1). simpl.
    unfold Promise.react. now rewrite (bind_throw _ _ _ _ _ H2).
  - intros e s1 next s2 x s3 H1 H2 H3. rewrite (bind_normal _ _ _ _ _ H1).
    simpl. unfold Promise.react. rewrite (bind_normal _ _ _ _ _ H2).
    now rewrite H3.
  - unfold bind, ret.
    destruct (effect this s) as [[[x | e | ] | e] s1]; reflexivity.
  - intros s1 H. now rewrite (bind_normal _ _ _ _ _ H).
  - intros x s1 H. now rewrite (bind_throw _ _ _ _ _ H).
Qed.

Lemma IO_catch_cases_witness :
  IO.run (IO.catch (errorIO : IO unit Q)
            (fun e => throw (VStr "handler failed"))) tt
  = (Normal (Rejected (VStr "handler failed")), tt) /\
  IO.run (IO.catch (IO.fromPromise (throw (VStr "no promise")) : IO unit Q)
            (fun _ => ret (IO.from (inl 5%Q)))) tt
  = (Throw (VStr "no promise"), tt) /\
  IO.run (IO.catch (errorIO : IO unit Q) (fun _ => ret errorIO)) tt
  = (Normal (Rejected (VError "Oops!")), tt).
Proof.
  split; [ | split].
  - destruct (IO_catch_cases unit Q errorIO
                (fun e => throw (VStr "handler failed")) tt)
      as [_ [H _]].
    apply (H (VError "Oops!") tt (VStr "handler failed") tt);
      reflexivity.
  - destruct (IO_catch_cases unit Q
                (IO.fromPromise (throw (VStr "no promise")))
                (fun _ => ret (IO.from (inl 5%Q))) tt)
      as [_ [_ [_ [_ [_ H]]]]].
    apply H. reflexivity.
  - destruct (IO_catch_cases unit Q errorIO (fun _ => ret errorIO) tt)
      as [_ [_ [H _]]].
    apply (H (VError "Oops!") tt errorIO tt (VError "Oops!") tt);
      reflexivity.
Defined.

(** [catch] after [chain]: a rejection of the first stage skips the mapper
    and reaches the handler; an exception thrown by the mapper, and a
    rejection of the container the mapper returns, reach the handler too;
    when both stages resolve the handler is not run. *)
Theorem IO_catch_after_chain :
  forall (Store T U : Type) (this : IO Store T)
         (mapper : T -> JS Store (IO Store U))
         (handler : Value -> JS Store (IO Store U)) (s : Store),
    (forall e s1,
        IO.run this s = (Normal (Rejected e), s1) ->
        IO.run (IO.catch (IO.chain this mapper) handler) s
        = Promise.react (next <- handler e ;; IO.run next) s1) /\
    (forall v s1 x s2,
        IO.run this s = (Normal (Resolved v), s1) ->
        mapper v s1 = (Throw x, s2) ->
        IO.run (IO.catch (IO.chain this mapper) handler) s
        = Promise.react (next <- handler x ;; IO.run next) s2) /\
    (forall v s1 next s2 x s3,
        IO.run this s = (Normal (Resolved v), s1) ->
        mapper v s1 = (Normal next, s2) ->
        IO.run next s2 = (Normal (Rejected x), s3) ->
        IO.run (IO.catch (IO.chain this mapper) handler) s
        = Promise.react (next' <- handler x ;; IO.run next') s3) /\
    (forall v s1 next s2 w s3,
        IO.run this s = (Normal (Resolved v), s1) ->
        mapper v s1 = (Normal next, s2) ->
        IO.run next s2 = (Normal (Resolved w), s3) ->
        IO.run (IO.catch (IO.chain this mapper) handler) s
        = (Normal (Resolved w), s3)).
Proof.
  intros Store T U this mapper handler s.
  unfold IO.run, IO.catch, IO.chain, bind, ret; simpl.
  split; [ | split; [ | split]].
  - intros e s1 H. now rewrite H.
  - intros v s1 x s2 H1 H2. rewrite H1. simpl.
    unfold Promise.react at 1. now rewrite H2.
  - intros v s1 next s2 x s3 H1 H2 H3. rewrite H1. simpl.
    unfold Promise.react at 1. now rewrite H2, H3.
  - intros v s1 next s2 w s3 H1 H2 H3. rewrite H1. simpl.
    unfold Promise.react. now rewrite H2, H3.
Qed.

Lemma IO_catch_after_chain_witness :
  IO.run (IO.catch
            (IO.chain (IO.from (inl 1%Q))
               (fun _ => throw (VStr "mapper failed")
                         : JS unit (IO unit Q)))
            (fun _ => ret (IO.from (inl 5%Q)))) tt
  = (Normal (Resolved 5%Q), tt) /\
  IO.run (IO.catch
            (IO.chain (errorIO : IO unit Q)
               (fun x => ret (IO.from (inl x))))
            (fun _ => ret (IO.from (inl 5%Q)))) tt
  = (Normal (Resolved 5%Q), tt).
Proof.
  split.
  - destruct (IO_catch_after_chain unit Q Q (IO.from (inl 1%Q))
                (fun _ => throw (VStr "mapper failed"))
                (fun _ => ret (IO.from (inl 5%Q))) tt)
      as [_ [H _]].
    apply (H 1%Q tt (VStr "mapper failed") tt); reflexivity.
  - destruct (IO_catch_after_chain unit Q Q errorIO
                (fun x => ret (IO.from (inl x)))
                (fun _ => ret (IO.from (inl 5%Q))) tt)
      as [H _].
    apply (H (VError "Oops!") tt). reflexivity.
Defined.
